(** * Acton SP2150 monochromator control library: command/reply contract

    A shallow embedding of [src/sp2150/sp2150.py] (the instrument adapter and
    its command-line dispatcher) and of [src/virtual_sp2150/virtual_sp2150.py]
    (the in-memory stand-in), followed by the properties of the
    command/reply contract.

    Conventions of the embedding.
    - A Python [str] is a [string]; a character is read as the code point of
      the same number (0 to 255).  pyvisa decodes replies as ASCII, so every
      instrument reply is in that range.
    - A Python [float] is a [spec_float] read at binary64 (precision 53,
      infinities at exponent 1024); a Python [int] is a [Z].
    - A raised exception is the [Raise] branch of [result].
    - The transport ([self.instr]) is a [session]: the list of commands sent
      so far together with the instrument's answer to a command given
      that history.  A session always answers: time-outs and I/O errors of
      the VISA layer are outside the embedding. *)

From Stdlib Require Import Bool List ZArith Lia Ascii String.
From Stdlib Require Import DecimalString DecimalPos.
From Stdlib Require Import Floats.SpecFloat.
Import ListNotations.

Local Open Scope string_scope.
Local Open Scope Z_scope.

(** ** Python strings *)

Module PyStr.

(** [c in chars], for the character-set argument of [str.strip]. *)
Fixpoint mem (c : ascii) (chars : string) : bool :=
  match chars with
  | EmptyString => false
  | String d chars' => Ascii.eqb c d || mem c chars'
  end.

(** [s.lstrip(chars)] *)
Fixpoint lstrip (chars s : string) : string :=
  match s with
  | EmptyString => EmptyString
  | String c s' => if mem c chars then lstrip chars s' else s
  end.

(** [s.rstrip(chars)] *)
Fixpoint rstrip (chars s : string) : string :=
  match s with
  | EmptyString => EmptyString
  | String c s' =>
      match rstrip chars s' with
      | EmptyString => if mem c chars then EmptyString else String c EmptyString
      | r => String c r
      end
  end.

(** [s.strip(chars)]: every leading and every trailing character that
    belongs to [chars] is removed. *)
Definition strip (chars s : string) : string := rstrip chars (lstrip chars s).

(** [s.endswith(suffix)] *)
Fixpoint endswith (s suffix : string) : bool :=
  String.eqb s suffix ||
  match s with
  | EmptyString => false
  | String _ s' => endswith s' suffix
  end.

(** Every character of [s] belongs to [chars]. *)
Fixpoint all_in (chars s : string) : bool :=
  match s with
  | EmptyString => true
  | String c s' => mem c chars && all_in chars s'
  end.

Definition first_char (s : string) : option ascii :=
  match s with
  | EmptyString => None
  | String c _ => Some c
  end.

Fixpoint last_char (s : string) : option ascii :=
  match s with
  | EmptyString => None
  | String c EmptyString => Some c
  | String _ s' => last_char s'
  end.

(** [c] is absent or outside [chars]. *)
Definition outside (chars : string) (c : option ascii) : bool :=
  match c with
  | None => true
  | Some c => negb (mem c chars)
  end.


End PyStr.

Definition CRLF : string := String "013" (String "010" EmptyString).

(** The text the adapter strips from every reply, and the success marker. *)
Definition STRIP_CHARS : string :=
  String " " (String "o" (String "k" (String "013" (String "010" EmptyString)))).
Definition OK_SUFFIX : string :=
  String "o" (String "k" (String "013" (String "010" EmptyString))).

(** ** Python values, exceptions and the builtin conversions *)

(** The values a caller can hand to a setter, and the values the stand-in
    stores: the command line passes a [str] or [None], library callers
    pass numbers.  Other Python objects are outside the embedding. *)
Inductive pyval : Type :=
| PNone
| PInt (z : Z)
| PFloat (f : spec_float)
| PStr (s : string).

(** Why a builtin conversion ([float(x)], [int(x)]) raised. *)
Inductive conv_failure : Type :=
| BadFloatLiteral (s : string)  (* ValueError: could not convert string to float *)
| BadIntLiteral (s : string)    (* ValueError: invalid literal for int() with base 10 *)
| NanToInt                      (* ValueError: cannot convert float NaN to integer *)
| InfToInt                      (* OverflowError: cannot convert float infinity to integer *)
| IntTooLarge                   (* OverflowError: int too large to convert to float *)
| NotANumber.                   (* TypeError: argument must be a string or a number *)

Inductive exn : Type :=
| ValueError (msg : string)       (* [raise ValueError(msg)] written in the adapter *)
| ConversionError (why : conv_failure)  (* raised inside [float()] or [int()] *)
| AttributeError (attr : string)  (* a missing attribute of the adapter object *)
| TransportError (msg : string).  (* raised by the VISA layer *)

Inductive result (A : Type) : Type :=
| Ok (a : A)
| Raise (e : exn).
Arguments Ok {A} a.
Arguments Raise {A} e.

Definition bind {A B : Type} (r : result A) (k : A -> result B) : result B :=
  match r with
  | Ok a => k a
  | Raise e => Raise e
  end.



Module PyNum.

Definition prec : Z := 53.
Definition emax : Z := 1024.

Definition code (c : ascii) : Z := Z.of_N (N_of_ascii c).

Definition is_digit (c : ascii) : bool := (48 <=? code c) && (code c <=? 57).

(** Whitespace skipped around a numeric literal: tab to carriage return,
    space, and the two spaces of the upper range (NEL, NBSP). *)
Definition is_space (c : ascii) : bool :=
  let n := code c in
  ((9 <=? n) && (n <=? 13)) || (n =? 32) || (n =? 133) || (n =? 160).

Definition lower (c : ascii) : ascii :=
  let n := code c in
  if (65 <=? n) && (n <=? 90) then ascii_of_N (Z.to_N (n + 32)) else c.

Fixpoint lower_str (s : string) : string :=
  match s with
  | EmptyString => EmptyString
  | String c s' => String (lower c) (lower_str s')
  end.

Fixpoint lstrip_space (s : string) : string :=
  match s with
  | EmptyString => EmptyString
  | String c s' => if is_space c then lstrip_space s' else s
  end.

Fixpoint rstrip_space (s : string) : string :=
  match s with
  | EmptyString => EmptyString
  | String c s' =>
      match rstrip_space s' with
      | EmptyString => if is_space c then EmptyString else String c EmptyString
      | r => String c r
      end
  end.

Definition strip_space (s : string) : string := rstrip_space (lstrip_space s).

(** The longest prefix of decimal digits, and what follows it. *)
Fixpoint span_digits (s : string) : string * string :=
  match s with
  | EmptyString => (EmptyString, EmptyString)
  | String c s' =>
      if is_digit c
      then let '(ds, rest) := span_digits s' in (String c ds, rest)
      else (EmptyString, s)
  end.

(** Value of a string of decimal digits read after the digits [acc]. *)
Fixpoint digits_value (acc : Z) (ds : string) : Z :=
  match ds with
  | EmptyString => acc
  | String c ds' => digits_value (10 * acc + (code c - 48)) ds'
  end.

Definition parse_sign (s : string) : bool * string :=
  match s with
  | String "-" s' => (true, s')
  | String "+" s' => (false, s')
  | _ => (false, s)
  end.

Definition cond_neg (neg : bool) (z : Z) : Z := if neg then - z else z.

(** Digit grouping of numeric literals in [float()]: an underscore must
    stand between two digits; the underscores are dropped.  [prev] is
    the character before [s]. *)
Fixpoint drop_underscores (prev : option ascii) (s : string) : option string :=
  let digit_before :=
    match prev with
    | Some p => is_digit p
    | None => false
    end in
  match s with
  | EmptyString =>
      match prev with
      | Some "_"%char => None
      | _ => Some EmptyString
      end
  | String "_" s' =>
      if digit_before then drop_underscores (Some "_"%char) s' else None
  | String c s' =>
      match prev with
      | Some "_"%char =>
          if is_digit c
          then option_map (String c) (drop_underscores (Some c) s')
          else None
      | _ => option_map (String c) (drop_underscores (Some c) s')
      end
  end.

(** *** [int(str)], base ten *)

(** Digits of an integer literal after the sign: at least one digit,
    single underscores only between digits.  The interpreter's optional
    cap on the length of a literal is not part of the embedding. *)
Fixpoint int_digits (prev_underscore : bool) (acc : Z) (s : string) : option Z :=
  match s with
  | EmptyString => if prev_underscore then None else Some acc
  | String "_" s' => if prev_underscore then None else int_digits true acc s'
  | String c s' =>
      if is_digit c then int_digits false (10 * acc + (code c - 48)) s' else None
  end.

Definition int_of_string (s : string) : option Z :=
  let '(neg, body) := parse_sign (strip_space s) in
  match body with
  | EmptyString => None
  | String "_" _ => None
  | _ => option_map (cond_neg neg) (int_digits false 0 body)
  end.

(** *** [float(str)] *)

(** An optional exponent part: [e] or [E], an optional sign and at least
    one digit; when the digits are missing nothing is consumed. *)
Definition parse_exponent (s : string) : Z * string :=
  match s with
  | String c s' =>
      if Ascii.eqb (lower c) "e"
      then let '(neg, r) := parse_sign s' in
           let '(ds, r') := span_digits r in
           match ds with
           | EmptyString => (0, s)
           | _ => (cond_neg neg (digits_value 0 ds), r')
           end
      else (0, s)
  | EmptyString => (0, s)
  end.

(** A decimal literal without sign: the digits of integer and fraction
    part joined, and the power of ten that scales them. *)
Definition parse_decimal (s : string) : option (string * Z) :=
  let '(ip, r1) := span_digits s in
  let '(fp, r2) :=
    match r1 with
    | String "." r => span_digits r
    | _ => (EmptyString, r1)
    end in
  match ip ++ fp with
  | EmptyString => None
  | ds =>
      let '(ex, r3) := parse_exponent r2 in
      match r3 with
      | EmptyString => Some (ds, ex - Z.of_nat (String.length fp))
      | _ => None
      end
  end.

Definition location_of (r den : Z) : location :=
  if r =? 0 then loc_Exact else loc_Inexact (2 * r ?= den).

(** The binary64 number nearest to [d * 10 ^ x], ties to even, infinite
    on overflow.  For a negative [x] the quotient is taken with more than
    [prec] bits and the remainder decides the rounding. *)
Definition float_of_decimal (neg : bool) (d x : Z) : spec_float :=
  match d with
  | Zpos p =>
      if 0 <=? x
      then binary_normalize prec emax (cond_neg neg (d * 10 ^ x)) 0 neg
      else
        let den := 10 ^ (- x) in
        let k := 55 + Z.log2_up den in
        let n := d * 2 ^ k in
        binary_round_aux prec emax neg (n / den) (- k) (location_of (n mod den) den)
  | _ => S754_zero neg
  end.

Definition float_of_string (s : string) : option spec_float :=
  match drop_underscores None s with
  | None => None
  | Some t =>
      let '(neg, body) := parse_sign (strip_space t) in
      match parse_decimal body with
      | Some (ds, x) => Some (float_of_decimal neg (digits_value 0 ds) x)
      | None =>
          let w := lower_str body in
          if String.eqb w "inf" || String.eqb w "infinity"
          then Some (S754_infinity neg)
          else if String.eqb w "nan" then Some S754_nan
          else None
      end
  end.

(** *** Conversions between numbers *)

(** [float(z)] for an [int]: nearest binary64, an error when out of range. *)
Definition float_of_int (z : Z) : result spec_float :=
  match binary_normalize prec emax z 0 false with
  | S754_infinity _ => Raise (ConversionError IntTooLarge)
  | f => Ok f
  end.

(** [int(f)] for a [float]: truncation toward zero. *)
Definition int_of_float (f : spec_float) : result Z :=
  match f with
  | S754_zero _ => Ok 0
  | S754_finite s m e => Ok (cond_neg s (Z.shiftl (Zpos m) e))
  | S754_nan => Raise (ConversionError NanToInt)
  | S754_infinity _ => Raise (ConversionError InfToInt)
  end.

(** [float(v)] *)
Definition py_float (v : pyval) : result spec_float :=
  match v with
  | PFloat f => Ok f
  | PInt z => float_of_int z
  | PStr s =>
      match float_of_string s with
      | Some f => Ok f
      | None => Raise (ConversionError (BadFloatLiteral s))
      end
  | PNone => Raise (ConversionError NotANumber)
  end.

(** [int(v)] *)
Definition py_int (v : pyval) : result Z :=
  match v with
  | PInt z => Ok z
  | PFloat f => int_of_float f
  | PStr s =>
      match int_of_string s with
      | Some z => Ok z
      | None => Raise (ConversionError (BadIntLiteral s))
      end
  | PNone => Raise (ConversionError NotANumber)
  end.

(** *** Formatting *)

Definition sign_str (neg : bool) : string := if neg then "-" else "".

(** [str(z)] for an [int], which is also [f"{z}"]. *)
Definition format_int (z : Z) : string := NilZero.string_of_int (Z.to_int z).

(** [n / d] rounded to the nearest integer, ties to even ([0 <= n], [0 < d]). *)
Definition div_nearest_even (n d : Z) : Z :=
  let q := n / d in
  match 2 * (n mod d) ?= d with
  | Lt => q
  | Gt => q + 1
  | Eq => if Z.even q then q else q + 1
  end.

(** [m * 2 ^ e] in tenths, rounded to the nearest tenth, ties to even. *)
Definition tenths (m : positive) (e : Z) : Z :=
  if 0 <=? e then 10 * Zpos m * 2 ^ e
  else div_nearest_even (10 * Zpos m) (2 ^ (- e)).

(** [f"{x:.1f}"] *)
Definition format_1f (x : spec_float) : string :=
  match x with
  | S754_nan => "nan"
  | S754_infinity s => sign_str s ++ "inf"
  | S754_zero s => sign_str s ++ "0.0"
  | S754_finite s m e =>
      let t := tenths m e in
      sign_str s ++ format_int (t / 10) ++ "." ++ format_int (t mod 10)
  end.


(** *** Shapes of numeric text *)






End PyNum.

(** ** The transport *)

(** An open VISA session ([self.instr]).  [respond history cmd] is the
    instrument's reply to [cmd] after the commands of [history]; [sent]
    is what has been written to the instrument so far, oldest first. *)
Record session : Type := {
  respond : list string -> string -> string;
  sent : list string
}.

(** The session after [cmd] has been written to it. *)
Definition written (i : session) (cmd : string) : session :=
  {| respond := respond i; sent := sent i ++ [cmd] |}.

(** What the resource manager does with a resource name ([None] when the
    caller gave none). *)
Record world : Type := {
  open_resource : option string -> result session
}.

(** ** The instrument adapter ([src/sp2150/sp2150.py]) *)

Module Adapter.
Import PyStr PyNum.

(** The adapter object: [self.instr] exists once [connect] has run. *)
Record sp2150 : Type := { instr : option session }.

(** A method of the adapter: it may raise, and it may change the object. *)
Definition M (A : Type) : Type := sp2150 -> result A * sp2150.

Definition ret {A : Type} (a : A) : M A := fun self => (Ok a, self).
Definition raise {A : Type} (e : exn) : M A := fun self => (Raise e, self).
Definition lift {A : Type} (r : result A) : M A := fun self => (r, self).
Definition mbind {A B : Type} (m : M A) (k : A -> M B) : M B :=
  fun self =>
    match m self with
    | (Ok a, self') => k a self'
    | (Raise e, self') => (Raise e, self')
    end.

Notation "x <- m ;; k" := (mbind m (fun x => k))
  (at level 61, m at next level, right associativity).

(** [sp2150()] *)
Definition new : sp2150 := {| instr := None |}.

(** [self.connect(resource_name)] with the default resource manager. *)
Definition connect (w : world) (resource_name : option string) : M unit :=
  fun self =>
    match open_resource w resource_name with
    | Ok s => (Ok tt, {| instr := Some s |})
    | Raise e => (Raise e, self)
    end.

(** [self.instr.query(cmd)]: one write and one read. *)
Definition query (cmd : string) : M string :=
  fun self =>
    match instr self with
    | None => (Raise (AttributeError "instr"), self)
    | Some i =>
        (Ok (respond i (sent i) cmd), {| instr := Some (written i cmd) |})
    end.

Definition command_failed (resp : string) : string :=
  "Command failed. Check parameter and try again. Instrument response "
  ++ "message: " ++ resp.

Definition _setter_query (cmd : string) : M unit :=
  resp <- query cmd ;;
  if negb (endswith resp OK_SUFFIX)
  then raise (ValueError (command_failed resp))
  else ret tt.

(** The getter of the property [scan_speed]. *)
Definition scan_speed : M spec_float :=
  resp <- query "?NM/MIN" ;;
  lift (py_float (PStr (strip STRIP_CHARS resp))).

(** The setter of the property [scan_speed]. *)
Definition set_scan_speed (speed : pyval) : M unit :=
  x <- lift (py_float speed) ;;
  _setter_query (format_1f x ++ " NM/MIN").

Definition scan_to_wavelength (wavelength : pyval) : M unit :=
  x <- lift (py_float wavelength) ;;
  resp <- query (format_1f x ++ " NM") ;;
  if negb (endswith resp OK_SUFFIX)
  then raise (ValueError (command_failed resp))
  else ret tt.

Definition wavelength : M spec_float :=
  resp <- query "?NM" ;;
  lift (py_float (PStr (strip STRIP_CHARS resp))).

Definition set_wavelength (wavelength : pyval) : M unit :=
  x <- lift (py_float wavelength) ;;
  _setter_query (format_1f x ++ " GOTO").

Definition grating : M Z :=
  resp <- query "?GRATING" ;;
  lift (py_int (PStr (strip STRIP_CHARS resp))).

Definition set_grating (grating : pyval) : M unit :=
  g <- lift (py_int grating) ;;
  _setter_query (format_int g ++ " GRATING").

Definition turret : M Z :=
  resp <- query "?TURRET" ;;
  lift (py_int (PStr (strip STRIP_CHARS resp))).

Definition set_turret (turret : pyval) : M unit :=
  t <- lift (py_int turret) ;;
  _setter_query (format_int t ++ " TURRET").

Definition grating_info : M string :=
  resp <- query "?GRATINGS" ;;
  ret (strip STRIP_CHARS resp).

Definition turret_info : M string :=
  resp <- query "?TURRETS" ;;
  ret (strip STRIP_CHARS resp).

Definition filter : M Z :=
  resp <- query "?FILTER" ;;
  lift (py_int (PStr (strip STRIP_CHARS resp))).

Definition set_filter (filter_pos : pyval) : M unit :=
  f <- lift (py_int filter_pos) ;;
  _setter_query (format_int f ++ " FILTER").

Definition home_filter : M unit :=
  resp <- query "FHOME" ;;
  let _ := strip STRIP_CHARS resp in
  ret tt.

(** [self.disconnect()]: closes [self.instr]. *)
Definition disconnect : M unit :=
  fun self =>
    match instr self with
    | None => (Raise (AttributeError "instr"), self)
    | Some _ => (Ok tt, self)
    end.

Definition __enter__ (self : sp2150) : sp2150 := self.

Definition __exit__ : M unit := disconnect.

(** *** The operations by name *)

Inductive float_setter : Type := SetScanSpeed | ScanToWavelength | SetWavelength.
Inductive int_setter : Type := SetGrating | SetTurret | SetFilter.
Inductive setter : Type := FloatSetter (op : float_setter) | IntSetter (op : int_setter).
Inductive float_getter : Type := GetScanSpeed | GetWavelength.
Inductive int_getter : Type := GetGrating | GetTurret | GetFilter.
Inductive info_getter : Type := GetGratingInfo | GetTurretInfo.

Definition run_float_setter (op : float_setter) : pyval -> M unit :=
  match op with
  | SetScanSpeed => set_scan_speed
  | ScanToWavelength => scan_to_wavelength
  | SetWavelength => set_wavelength
  end.

Definition run_int_setter (op : int_setter) : pyval -> M unit :=
  match op with
  | SetGrating => set_grating
  | SetTurret => set_turret
  | SetFilter => set_filter
  end.

Definition run_setter (op : setter) : pyval -> M unit :=
  match op with
  | FloatSetter op => run_float_setter op
  | IntSetter op => run_int_setter op
  end.

Definition run_float_getter (op : float_getter) : M spec_float :=
  match op with
  | GetScanSpeed => scan_speed
  | GetWavelength => wavelength
  end.

Definition run_int_getter (op : int_getter) : M Z :=
  match op with
  | GetGrating => grating
  | GetTurret => turret
  | GetFilter => filter
  end.

Definition run_info_getter (op : info_getter) : M string :=
  match op with
  | GetGratingInfo => grating_info
  | GetTurretInfo => turret_info
  end.

(** The command words of the instrument's language, as the source
    writes them after the number. *)
Definition float_setter_word (op : float_setter) : string :=
  match op with
  | SetScanSpeed => " NM/MIN"
  | ScanToWavelength => " NM"
  | SetWavelength => " GOTO"
  end.

Definition int_setter_word (op : int_setter) : string :=
  match op with
  | SetGrating => " GRATING"
  | SetTurret => " TURRET"
  | SetFilter => " FILTER"
  end.

Definition float_getter_command (op : float_getter) : string :=
  match op with
  | GetScanSpeed => "?NM/MIN"
  | GetWavelength => "?NM"
  end.

Definition int_getter_command (op : int_getter) : string :=
  match op with
  | GetGrating => "?GRATING"
  | GetTurret => "?TURRET"
  | GetFilter => "?FILTER"
  end.

Definition info_getter_command (op : info_getter) : string :=
  match op with
  | GetGratingInfo => "?GRATINGS"
  | GetTurretInfo => "?TURRETS"
  end.

(** An adapter connected to [i], and what an adapter has sent. *)
Definition connected (i : session) : sp2150 := {| instr := Some i |}.

Definition sent_by (self : sp2150) : list string :=
  match instr self with
  | Some i => sent i
  | None => []
  end.

(** The instrument's answer to the next command. *)
Definition reply_of (i : session) (cmd : string) : string := respond i (sent i) cmd.

(** The command a setter transmits for the argument [v], when the
    conversion of [v] lets it transmit one. *)
Definition setter_command (op : setter) (v : pyval) : result string :=
  match op with
  | FloatSetter o =>
      bind (py_float v) (fun x => Ok (format_1f x ++ float_setter_word o))
  | IntSetter o =>
      bind (py_int v) (fun z => Ok (format_int z ++ int_setter_word o))
  end.

(** The outcome a setter derives from the reply. *)
Definition validated (resp : string) : result unit :=
  if endswith resp OK_SUFFIX then Ok tt
  else Raise (ValueError (command_failed resp)).



Definition is_ok {A : Type} (r : result A) : bool :=
  match r with
  | Ok _ => true
  | Raise _ => false
  end.

(** The number 1000.0. *)
Definition one_thousand : spec_float := S754_finite false 8796093022208000 (-43).

(** An instrument that answers every command with the same text. *)
Definition always (reply : string) : session :=
  {| respond := fun _ _ => reply; sent := [] |}.

End Adapter.

(** ** The stand-in ([src/virtual_sp2150/virtual_sp2150.py]) *)

Module Virtual.

(** The number 500.0. *)
Definition five_hundred : spec_float := S754_finite false 8796093022208000 (-44).

(** The attributes set by [__init__]; a setter stores the value it is
    given as it is. *)
Record sp2150 : Type := {
  _scan_speed : pyval;
  _wavelength : pyval;
  _grating : pyval;
  _turret : pyval;
  _grating_info : pyval;
  _turret_info : pyval;
  _filter : pyval
}.

(** [__init__] *)
Definition init : sp2150 := {|
  _scan_speed := PInt 1000;
  _wavelength := PInt 0;
  _grating := PInt 1;
  _turret := PInt 1;
  _grating_info := PStr "dummy info";
  _turret_info := PStr "dummy info";
  _filter := PInt 1
|}.

Definition connect (resource_name : option string) (self : sp2150) : sp2150 := self.
Definition disconnect (self : sp2150) : sp2150 := self.
Definition _setter_query (cmd : string) (self : sp2150) : sp2150 := self.

Definition scan_speed (self : sp2150) : pyval := _scan_speed self.

Definition set_scan_speed (speed : pyval) (self : sp2150) : sp2150 :=
  {| _scan_speed := speed;
     _wavelength := _wavelength self;
     _grating := _grating self;
     _turret := _turret self;
     _grating_info := _grating_info self;
     _turret_info := _turret_info self;
     _filter := _filter self |}.

Definition scan_to_wavelength (wavelength : pyval) (self : sp2150) : sp2150 :=
  {| _scan_speed := _scan_speed self;
     _wavelength := wavelength;
     _grating := _grating self;
     _turret := _turret self;
     _grating_info := _grating_info self;
     _turret_info := _turret_info self;
     _filter := _filter self |}.

Definition wavelength (self : sp2150) : pyval := _wavelength self.

Definition set_wavelength (wavelength : pyval) (self : sp2150) : sp2150 :=
  {| _scan_speed := _scan_speed self;
     _wavelength := wavelength;
     _grating := _grating self;
     _turret := _turret self;
     _grating_info := _grating_info self;
     _turret_info := _turret_info self;
     _filter := _filter self |}.

Definition grating (self : sp2150) : pyval := _grating self.

Definition set_grating (grating : pyval) (self : sp2150) : sp2150 :=
  {| _scan_speed := _scan_speed self;
     _wavelength := _wavelength self;
     _grating := grating;
     _turret := _turret self;
     _grating_info := _grating_info self;
     _turret_info := _turret_info self;
     _filter := _filter self |}.

Definition turret (self : sp2150) : pyval := _turret self.

Definition set_turret (turret : pyval) (self : sp2150) : sp2150 :=
  {| _scan_speed := _scan_speed self;
     _wavelength := _wavelength self;
     _grating := _grating self;
     _turret := turret;
     _grating_info := _grating_info self;
     _turret_info := _turret_info self;
     _filter := _filter self |}.

Definition grating_info (self : sp2150) : pyval := _grating_info self.
Definition turret_info (self : sp2150) : pyval := _turret_info self.

Definition filter (self : sp2150) : pyval := _filter self.

Definition set_filter (filter_pos : pyval) (self : sp2150) : sp2150 :=
  {| _scan_speed := _scan_speed self;
     _wavelength := _wavelength self;
     _grating := _grating self;
     _turret := _turret self;
     _grating_info := _grating_info self;
     _turret_info := _turret_info self;
     _filter := filter_pos |}.

Definition home_filter (self : sp2150) : sp2150 :=
  {| _scan_speed := _scan_speed self;
     _wavelength := _wavelength self;
     _grating := _grating self;
     _turret := _turret self;
     _grating_info := _grating_info self;
     _turret_info := _turret_info self;
     _filter := PInt 1 |}.

(** The operations that write to the object, with their argument. *)
Inductive mutation : Type :=
| SetScanSpeed (v : pyval)
| ScanToWavelength (v : pyval)
| SetWavelength (v : pyval)
| SetGrating (v : pyval)
| SetTurret (v : pyval)
| SetFilter (v : pyval)
| HomeFilter.

Definition apply (op : mutation) : sp2150 -> sp2150 :=
  match op with
  | SetScanSpeed v => set_scan_speed v
  | ScanToWavelength v => scan_to_wavelength v
  | SetWavelength v => set_wavelength v
  | SetGrating v => set_grating v
  | SetTurret v => set_turret v
  | SetFilter v => set_filter v
  | HomeFilter => home_filter
  end.

(** The attributes by name, and the one attribute an operation owns. *)
Inductive field : Type :=
| FScanSpeed | FWavelength | FGrating | FTurret | FGratingInfo | FTurretInfo | FFilter.

Definition get (f : field) : sp2150 -> pyval :=
  match f with
  | FScanSpeed => _scan_speed
  | FWavelength => _wavelength
  | FGrating => _grating
  | FTurret => _turret
  | FGratingInfo => _grating_info
  | FTurretInfo => _turret_info
  | FFilter => _filter
  end.

Definition own_field (op : mutation) : field :=
  match op with
  | SetScanSpeed _ => FScanSpeed
  | ScanToWavelength _ | SetWavelength _ => FWavelength
  | SetGrating _ => FGrating
  | SetTurret _ => FTurret
  | SetFilter _ | HomeFilter => FFilter
  end.

End Virtual.

(** ** The command-line dispatcher (the [__main__] block of [sp2150.py]) *)

Module CLI.
Import Adapter.

(** The two options that take a value. *)
Inductive option_name : Type := NameOpt | ParamOpt.

(** A command line, item by item, as argparse classifies the arguments
    before it interprets them:
    - [Word s]: an argument that is not an option;
    - [Opt o v]: one of [-n/--resource-name] and [-p/--parameter] with the
      value that comes with it ([None] when no value follows);
    - [Help]: [-h/--help], which argparse adds to every parser;
    - [Unknown s]: an option the parser does not declare. *)
Inductive arg : Type :=
| Word (s : string)
| Opt (o : option_name) (value : option string)
| Help
| Unknown (s : string).

(** The result of [parser.parse_args()]. *)
Record namespace : Type := {
  resource_name : option string;
  function : string;
  parameter : option string
}.

Inductive parsed : Type :=
| Parsed (args : namespace)
| SystemExit (code : Z).

Definition choices : list string :=
  [ "set_scan_speed"; "get_scan_speed"; "scan_to_wavelength"; "goto_wavelength";
    "get_wavelength"; "set_grating"; "get_grating"; "set_turret"; "get_turret";
    "get_grating_info"; "get_turret_info"; "set_filter"; "get_filter";
    "home_filter" ].

Fixpoint in_list (s : string) (l : list string) : bool :=
  match l with
  | [] => false
  | x :: l' => String.eqb s x || in_list s l'
  end.

(** What the parser has collected so far.  Neither option is declared
    [required] and neither has a [default], so both start as [None];
    [extras] records arguments nobody consumed. *)
Record collected : Type := {
  c_resource_name : option string;
  c_function : option string;
  c_parameter : option string;
  extras : bool
}.

Definition nothing : collected :=
  {| c_resource_name := None; c_function := None; c_parameter := None;
     extras := false |}.

(** Arguments are interpreted from left to right.  A value outside
    [choices] and an option without its value are errors (exit status 2)
    where they stand; [Help] prints the usage and exits with status 0; a
    missing [function] and left-over arguments are errors at the end. *)
Fixpoint scan (argv : list arg) (c : collected) : parsed :=
  match argv with
  | [] =>
      match c_function c with
      | None => SystemExit 2
      | Some f =>
          if extras c then SystemExit 2
          else Parsed {| resource_name := c_resource_name c;
                         function := f;
                         parameter := c_parameter c |}
      end
  | Word s :: rest =>
      match c_function c with
      | None =>
          if in_list s choices
          then scan rest {| c_resource_name := c_resource_name c;
                            c_function := Some s;
                            c_parameter := c_parameter c;
                            extras := extras c |}
          else SystemExit 2
      | Some _ =>
          scan rest {| c_resource_name := c_resource_name c;
                       c_function := c_function c;
                       c_parameter := c_parameter c;
                       extras := true |}
      end
  | Opt _ None :: _ => SystemExit 2
  | Opt NameOpt (Some v) :: rest =>
      scan rest {| c_resource_name := Some v;
                   c_function := c_function c;
                   c_parameter := c_parameter c;
                   extras := extras c |}
  | Opt ParamOpt (Some v) :: rest =>
      scan rest {| c_resource_name := c_resource_name c;
                   c_function := c_function c;
                   c_parameter := Some v;
                   extras := extras c |}
  | Help :: _ => SystemExit 0
  | Unknown _ :: rest =>
      scan rest {| c_resource_name := c_resource_name c;
                   c_function := c_function c;
                   c_parameter := c_parameter c;
                   extras := true |}
  end.

Definition parse_args (argv : list arg) : parsed := scan argv nothing.

(** [args.parameter] as the value handed to the adapter. *)
Definition parameter_value (args : namespace) : pyval :=
  match parameter args with
  | Some s => PStr s
  | None => PNone
  end.

(** The [if]/[elif] chain; the result is what [print] is given. *)
Definition dispatch (args : namespace) : M (option pyval) :=
  let f := function args in
  let p := parameter_value args in
  if String.eqb f "set_scan_speed" then
    _ <- set_scan_speed p ;; ret None
  else if String.eqb f "get_scan_speed" then
    x <- scan_speed ;; ret (Some (PFloat x))
  else if String.eqb f "scan_to_wavelength" then
    _ <- scan_to_wavelength p ;; ret None
  else if String.eqb f "goto_wavelength" then
    _ <- set_wavelength p ;; ret None
  else if String.eqb f "get_wavelength" then
    x <- wavelength ;; ret (Some (PFloat x))
  else if String.eqb f "set_grating" then
    _ <- set_grating p ;; ret None
  else if String.eqb f "get_grating" then
    x <- grating ;; ret (Some (PInt x))
  else if String.eqb f "set_turret" then
    _ <- set_turret p ;; ret None
  else if String.eqb f "get_turret" then
    x <- turret ;; ret (Some (PInt x))
  else if String.eqb f "get_grating_info" then
    x <- grating_info ;; ret (Some (PStr x))
  else if String.eqb f "get_turret_info" then
    x <- turret_info ;; ret (Some (PStr x))
  else if String.eqb f "set_filter" then
    _ <- set_filter p ;; ret None
  else if String.eqb f "get_filter" then
    x <- filter ;; ret (Some (PInt x))
  else if String.eqb f "home_filter" then
    _ <- home_filter ;; ret None
  else ret None.

(** The functions that need [-p]: the setters and the scan. *)
Definition takes_parameter (f : string) : bool :=
  in_list f [ "set_scan_speed"; "scan_to_wavelength"; "goto_wavelength";
              "set_grating"; "set_turret"; "set_filter" ].

(** What a run of the program does to the transport, in order. *)
Inductive event : Type :=
| Opening (name : option string)
| Sending (cmd : string)
| Closing.

Inductive status : Type :=
| Finished
| Exited (code : Z)
| Uncaught (e : exn).

Record run : Type := {
  transport : list event;
  printed : option pyval;
  outcome : status
}.

(** The commands [after] holds beyond those of the freshly opened session. *)
Definition commands_since (opened : option session) (after : sp2150) : list string :=
  match opened with
  | Some s0 => skipn (List.length (sent s0)) (sent_by after)
  | None => []
  end.

(** The program: parse, then inside [with sp2150() as mono] connect and
    dispatch; [__exit__] disconnects on every path, and raises in turn
    when [connect] never set [self.instr]. *)
Definition main (w : world) (argv : list arg) : run :=
  match parse_args argv with
  | SystemExit code =>
      {| transport := []; printed := None; outcome := Exited code |}
  | Parsed args =>
      let '(c, mono1) := connect w (resource_name args) (__enter__ new) in
      let '(r, mono2) :=
        match c with
        | Ok _ => dispatch args mono1
        | Raise e => (Raise e, mono1)
        end in
      let '(d, mono3) := __exit__ mono2 in
      {| transport :=
           Opening (resource_name args)
           :: map Sending (commands_since (instr mono1) mono2)
           ++ match d with Ok _ => [Closing] | Raise _ => [] end;
         printed := match r with Ok v => v | Raise _ => None end;
         outcome :=
           match d, r with
           | Raise e, _ => Uncaught e
           | Ok _, Raise e => Uncaught e
           | Ok _, Ok _ => Finished
           end |}
  end.

(** The function named on the command line: its first [Word]. *)
Fixpoint function_argument (argv : list arg) : option string :=
  match argv with
  | [] => None
  | Word s :: _ => Some s
  | _ :: rest => function_argument rest
  end.

Fixpoint given (o : option_name) (argv : list arg) : bool :=
  match argv with
  | [] => false
  | Opt NameOpt _ :: rest =>
      match o with NameOpt => true | ParamOpt => given o rest end
  | Opt ParamOpt _ :: rest =>
      match o with ParamOpt => true | NameOpt => given o rest end
  | _ :: rest => given o rest
  end.

(** A resource manager that opens, under any name, a fresh session with
    an instrument that accepts every command. *)
Definition obliging : world :=
  {| open_resource := fun _ => Ok (always ("ok" ++ CRLF)) |}.

(** A resource manager that opens nothing. *)
Definition unreachable : world :=
  {| open_resource := fun _ => Raise (TransportError "no such resource") |}.


End CLI.

(** ** A caller of the adapter *)

Module Program.
Import Adapter.






(** [with sp2150() as mono: body]: [__exit__] runs on every path, and an
    exception it raises replaces the one of the body. *)
Definition with_sp2150 {A : Type} (body : M A) : result A * sp2150 :=
  let '(r, mono1) := body (__enter__ new) in
  match __exit__ mono1 with
  | (Ok _, mono2) => (r, mono2)
  | (Raise e, mono2) => (Raise e, mono2)
  end.



End Program.

(** ** The command-line dispatcher of the stand-in
       (the [__main__] block of [virtual_sp2150.py]) *)

Module VirtualCLI.
Import CLI.

(** The stand-in declares the same parser, so [CLI.parse_args] is its
    parser too.  Its [__enter__] returns the object and its [__exit__]
    calls [disconnect], which does nothing. *)
Definition __enter__ (self : Virtual.sp2150) : Virtual.sp2150 := self.

Definition __exit__ (self : Virtual.sp2150) : Virtual.sp2150 :=
  Virtual.disconnect self.

(** The [if]/[elif] chain: what [print] is given, and the object after. *)
Definition dispatch (args : namespace) (mono : Virtual.sp2150)
  : option pyval * Virtual.sp2150 :=
  let f := function args in
  let p := parameter_value args in
  if String.eqb f "set_scan_speed" then (None, Virtual.set_scan_speed p mono)
  else if String.eqb f "get_scan_speed" then (Some (Virtual.scan_speed mono), mono)
  else if String.eqb f "scan_to_wavelength" then
    (None, Virtual.scan_to_wavelength p mono)
  else if String.eqb f "goto_wavelength" then (None, Virtual.set_wavelength p mono)
  else if String.eqb f "get_wavelength" then (Some (Virtual.wavelength mono), mono)
  else if String.eqb f "set_grating" then (None, Virtual.set_grating p mono)
  else if String.eqb f "get_grating" then (Some (Virtual.grating mono), mono)
  else if String.eqb f "set_turret" then (None, Virtual.set_turret p mono)
  else if String.eqb f "get_turret" then (Some (Virtual.turret mono), mono)
  else if String.eqb f "get_grating_info" then
    (Some (Virtual.grating_info mono), mono)
  else if String.eqb f "get_turret_info" then
    (Some (Virtual.turret_info mono), mono)
  else if String.eqb f "set_filter" then (None, Virtual.set_filter p mono)
  else if String.eqb f "get_filter" then (Some (Virtual.filter mono), mono)
  else if String.eqb f "home_filter" then (None, Virtual.home_filter mono)
  else (None, mono).

(** A run of the stand-in's program: what it prints, how it ends, and the
    object it leaves behind when it got as far as creating one. *)
Record run : Type := {
  printed : option pyval;
  outcome : status;
  final : option Virtual.sp2150
}.

Definition main (argv : list arg) : run :=
  match parse_args argv with
  | SystemExit code =>
      {| printed := None; outcome := Exited code; final := None |}
  | Parsed args =>
      let mono := Virtual.connect (resource_name args) (__enter__ Virtual.init) in
      let '(out, mono1) := dispatch args mono in
      {| printed := out; outcome := Finished; final := Some (__exit__ mono1) |}
  end.

End VirtualCLI.

(** ** A caller of the stand-in *)

Module VirtualProgram.

(** The operations of the stand-in one after another. *)
Definition apply_all (ops : list Virtual.mutation) (self : Virtual.sp2150)
  : Virtual.sp2150 :=
  fold_left (fun s op => Virtual.apply op s) ops self.

(** The value an operation writes to its attribute. *)
Definition value_written (op : Virtual.mutation) : pyval :=
  match op with
  | Virtual.SetScanSpeed v | Virtual.ScanToWavelength v | Virtual.SetWavelength v
  | Virtual.SetGrating v | Virtual.SetTurret v | Virtual.SetFilter v => v
  | Virtual.HomeFilter => PInt 1
  end.

Definition field_eqb (f g : Virtual.field) : bool :=
  match f, g with
  | Virtual.FScanSpeed, Virtual.FScanSpeed
  | Virtual.FWavelength, Virtual.FWavelength
  | Virtual.FGrating, Virtual.FGrating
  | Virtual.FTurret, Virtual.FTurret
  | Virtual.FGratingInfo, Virtual.FGratingInfo
  | Virtual.FTurretInfo, Virtual.FTurretInfo
  | Virtual.FFilter, Virtual.FFilter => true
  | _, _ => false
  end.

(** The value the last operation of [ops] that owns [f] writes, if any. *)
Fixpoint last_write (f : Virtual.field) (ops : list Virtual.mutation)
  : option pyval :=
  match ops with
  | [] => None
  | op :: rest =>
      match last_write f rest with
      | Some v => Some v
      | None =>
          if field_eqb f (Virtual.own_field op) then Some (value_written op)
          else None
      end
  end.

End VirtualProgram.

(** ** Facts about Python strings *)

Section PyStrFacts.
Import PyStr.



Lemma all_in_app chars a b :
  all_in chars (a ++ b) = all_in chars a && all_in chars b.
Proof.
  induction a as [|c a IH]; simpl; [reflexivity|].
  rewrite IH. now rewrite andb_assoc.
Qed.

Lemma lstrip_split chars s :
  exists pre, s = pre ++ lstrip chars s /\ all_in chars pre = true.
Proof.
  induction s as [|c s IH]; simpl.
  - exists "". auto.
  - destruct (mem c chars) eqn:E.
    + destruct IH as [pre [H1 H2]].
      exists (String c pre). simpl. rewrite E, H2.
      split; [now f_equal | reflexivity].
    + exists "". auto.
Qed.

Lemma lstrip_first chars s : outside chars (first_char (lstrip chars s)) = true.
Proof.
  induction s as [|c s IH]; simpl; [reflexivity|].
  destruct (mem c chars) eqn:E; [assumption|]. simpl. now rewrite E.
Qed.

Lemma rstrip_split chars s :
  exists post, s = rstrip chars s ++ post /\ all_in chars post = true.
Proof.
  induction s as [|c s IH]; simpl.
  - exists "". auto.
  - destruct IH as [post [H1 H2]].
    destruct (rstrip chars s) eqn:R.
    + destruct (mem c chars) eqn:E.
      * exists (String c post). simpl in *. rewrite E, H2. subst s. auto.
      * exists post. simpl in *. subst s. auto.
    + exists post. simpl in *. split; [now f_equal | assumption].
Qed.

Lemma rstrip_last chars s : outside chars (last_char (rstrip chars s)) = true.
Proof.
  induction s as [|c s IH]; simpl; [reflexivity|].
  destruct (rstrip chars s) eqn:R.
  - destruct (mem c chars) eqn:E; simpl; [reflexivity| now rewrite E].
  - exact IH.
Qed.

Lemma rstrip_first chars s :
  outside chars (first_char s) = true ->
  outside chars (first_char (rstrip chars s)) = true.
Proof.
  destruct s as [|c s]; simpl; [auto|].
  intros H. destruct (rstrip chars s); [|exact H].
  destruct (mem c chars) eqn:E; [discriminate|]. simpl. now rewrite E.
Qed.

(** What [strip] computes: the reply is [pre ++ strip ++ post], both ends
    made of stripped characters only, and the result neither starts nor
    ends with one. *)
Lemma strip_spec chars s :
  exists pre post,
    s = pre ++ strip chars s ++ post /\
    all_in chars pre = true /\ all_in chars post = true /\
    outside chars (first_char (strip chars s)) = true /\
    outside chars (last_char (strip chars s)) = true.
Proof.
  unfold strip.
  destruct (lstrip_split chars s) as [pre [H1 H2]].
  destruct (rstrip_split chars (lstrip chars s)) as [post [H3 H4]].
  exists pre, post. repeat split; auto.
  - rewrite <- H3. exact H1.
  - apply rstrip_first, lstrip_first.
  - apply rstrip_last.
Qed.

Lemma endswith_iff s suffix :
  endswith s suffix = true <-> exists p, s = p ++ suffix.
Proof.
  induction s as [|c s IH].
  - cbn [endswith]. rewrite orb_false_r, String.eqb_eq. split.
    + intros <-. now exists "".
    + intros [p H]. destruct p; simpl in H; [auto|discriminate].
  - cbn [endswith]. rewrite orb_true_iff, String.eqb_eq, IH. split.
    + intros [<-|[p ->]]; [now exists ""| now exists (String c p)].
    + intros [p H]. destruct p as [|d p]; simpl in H; [now left|].
      right. exists p. congruence.
Qed.

Lemma lstrip_all_in chars s : all_in chars s = true -> lstrip chars s = "".
Proof.
  induction s as [|c s IH]; simpl; [reflexivity|].
  destruct (mem c chars); [exact IH | discriminate].
Qed.

Lemma rstrip_all_in chars s : all_in chars s = true -> rstrip chars s = "".
Proof.
  induction s as [|c s IH]; simpl; [reflexivity|].
  destruct (mem c chars) eqn:E; [|discriminate].
  intros H. now rewrite (IH H).
Qed.

Lemma rstrip_app chars s t :
  all_in chars t = true -> rstrip chars (s ++ t) = rstrip chars s.
Proof.
  intros H. induction s as [|c s IH]; simpl.
  - now apply rstrip_all_in.
  - now rewrite IH.
Qed.

Lemma lstrip_app chars s t :
  lstrip chars (s ++ t) =
  if all_in chars s then lstrip chars t else lstrip chars s ++ t.
Proof.
  induction s as [|c s IH]; simpl; [reflexivity|].
  destruct (mem c chars); [exact IH | reflexivity].
Qed.

(** Stripped characters appended to a text do not survive, and take with
    them whatever stripped characters the text itself ends with. *)
Lemma strip_app chars s t :
  all_in chars t = true -> strip chars (s ++ t) = strip chars s.
Proof.
  intros H. unfold strip. rewrite lstrip_app.
  destruct (all_in chars s) eqn:E.
  - now rewrite (lstrip_all_in _ _ H), (lstrip_all_in _ _ E).
  - now apply rstrip_app.
Qed.



End PyStrFacts.

(** ** The stand-in keeps what it is given *)

Section VirtualFacts.

Lemma five_hundred_exact :
  PyNum.float_of_string "500.0" = Some Virtual.five_hundred /\
  PyNum.float_of_int 500 = Ok Virtual.five_hundred /\
  PyNum.int_of_float Virtual.five_hundred = Ok 500 /\
  valid_binary PyNum.prec PyNum.emax Virtual.five_hundred = true.
Proof. repeat split; vm_compute; reflexivity. Qed.

Lemma virtual_get_set (v : pyval) (self : Virtual.sp2150) :
  (Virtual.scan_speed (Virtual.set_scan_speed v self) = v) /\
  (Virtual.wavelength (Virtual.scan_to_wavelength v self) = v) /\
  (Virtual.wavelength (Virtual.set_wavelength v self) = v) /\
  (Virtual.grating (Virtual.set_grating v self) = v) /\
  (Virtual.turret (Virtual.set_turret v self) = v) /\
  (Virtual.filter (Virtual.set_filter v self) = v).
Proof. repeat split. Qed.

(** C7. On the stand-in, writing the wavelength 500.0 and reading the
    wavelength back gives 500.0, whatever the object held before; and so
    for every value written: reading after writing is the identity on
    the value. *)
Theorem C7_virtual_wavelength_round_trip (self : Virtual.sp2150) :
  Virtual.wavelength (Virtual.set_wavelength (PFloat Virtual.five_hundred) self)
    = PFloat Virtual.five_hundred /\
  (forall v : pyval, Virtual.wavelength (Virtual.set_wavelength v self) = v).
Proof. split; [reflexivity | intros v; reflexivity]. Qed.

(** C8. On the stand-in, [home_filter] sets the filter position to 1: the
    filter read afterwards is 1 for every prior state. *)
Theorem C8_virtual_home_filter (self : Virtual.sp2150) :
  Virtual._filter (Virtual.home_filter self) = PInt 1 /\
  Virtual.filter (Virtual.home_filter self) = PInt 1.
Proof. split; reflexivity. Qed.

(** The value an operation leaves in its own attribute. *)
Lemma virtual_own_field_written (op : Virtual.mutation) (self : Virtual.sp2150) :
  Virtual.get (Virtual.own_field op) (Virtual.apply op self) =
  match op with
  | Virtual.SetScanSpeed v | Virtual.ScanToWavelength v | Virtual.SetWavelength v
  | Virtual.SetGrating v | Virtual.SetTurret v | Virtual.SetFilter v => v
  | Virtual.HomeFilter => PInt 1
  end.
Proof. destruct op; reflexivity. Qed.

(** C10. Frame property of the stand-in: an operation that writes leaves
    every attribute other than its own as it was; the two info
    attributes belong to no operation, so no operation changes them. *)
Theorem C10_virtual_frame (op : Virtual.mutation) (self : Virtual.sp2150)
    (f : Virtual.field) (H : f <> Virtual.own_field op) :
  Virtual.get f (Virtual.apply op self) = Virtual.get f self.
Proof.
  destruct op, f; try reflexivity; exfalso; apply H; reflexivity.
Qed.

Lemma C10_virtual_frame_witness :
  Virtual.FGratingInfo <> Virtual.own_field (Virtual.SetFilter (PInt 3)) /\
  Virtual.get Virtual.FGratingInfo
    (Virtual.apply (Virtual.SetFilter (PInt 3)) Virtual.init)
  = Virtual.get Virtual.FGratingInfo Virtual.init.
Proof.
  split; [discriminate|].
  apply (C10_virtual_frame (Virtual.SetFilter (PInt 3)) Virtual.init
           Virtual.FGratingInfo).
  discriminate.
Defined.

Lemma virtual_no_write (name : option string) (cmd : string)
    (self : Virtual.sp2150) :
  Virtual.connect name self = self /\
  Virtual.disconnect self = self /\
  Virtual._setter_query cmd self = self.
Proof. repeat split. Qed.

Lemma virtual_info_untouched (op : Virtual.mutation) (self : Virtual.sp2150) :
  Virtual.grating_info (Virtual.apply op self) = Virtual.grating_info self /\
  Virtual.turret_info (Virtual.apply op self) = Virtual.turret_info self.
Proof. destruct op; split; reflexivity. Qed.

End VirtualFacts.

(** ** The text of formatted numbers *)

Section FormatFacts.
Import PyNum.










Lemma div_nearest_even_nonneg (n d : Z) :
  0 <= n -> 0 < d -> 0 <= div_nearest_even n d.
Proof.
  intros Hn Hd. unfold div_nearest_even.
  assert (0 <= n / d) by (apply Z.div_pos; lia).
  destruct (2 * (n mod d) ?= d); [destruct (Z.even (n / d))| |]; lia.
Qed.

Lemma tenths_nonneg (m : positive) (e : Z) : 0 <= tenths m e.
Proof.
  unfold tenths. destruct (0 <=? e) eqn:E.
  - apply Z.leb_le in E.
    assert (0 <= 2 ^ e) by (apply Z.pow_nonneg; lia). nia.
  - apply Z.leb_gt in E. apply div_nearest_even_nonneg; [lia|].
    apply Z.pow_pos_nonneg; lia.
Qed.




End FormatFacts.

(** ** The instrument adapter: one command, one reply *)

Section AdapterFacts.
Import PyStr PyNum Adapter.

Lemma query_run (i : session) (cmd : string) :
  query cmd (connected i) = (Ok (reply_of i cmd), connected (written i cmd)).
Proof. reflexivity. Qed.

Lemma setter_query_run (i : session) (cmd : string) :
  _setter_query cmd (connected i)
  = (validated (reply_of i cmd), connected (written i cmd)).
Proof.
  unfold _setter_query, mbind, validated. rewrite query_run.
  destruct (endswith (reply_of i cmd) OK_SUFFIX); reflexivity.
Qed.

(** Every setter is: convert the argument, transmit one command, judge
    the reply; a failed conversion transmits nothing. *)
Lemma run_setter_eq (op : setter) (v : pyval) (i : session) :
  run_setter op v (connected i) =
  match setter_command op v with
  | Ok cmd => (validated (reply_of i cmd), connected (written i cmd))
  | Raise e => (Raise e, connected i)
  end.
Proof.
  destruct op as [[| |]|[| |]]; simpl;
    unfold set_scan_speed, scan_to_wavelength, set_wavelength,
           set_grating, set_turret, set_filter, mbind, lift;
    [ destruct (py_float v) | destruct (py_float v) | destruct (py_float v)
    | destruct (py_int v) | destruct (py_int v) | destruct (py_int v) ];
    simpl; try reflexivity; apply setter_query_run.
Qed.





Lemma float_getter_run (op : float_getter) (i : session) :
  run_float_getter op (connected i) =
  (py_float (PStr (strip STRIP_CHARS (reply_of i (float_getter_command op)))),
   connected (written i (float_getter_command op))).
Proof. destruct op; reflexivity. Qed.

Lemma int_getter_run (op : int_getter) (i : session) :
  run_int_getter op (connected i) =
  (py_int (PStr (strip STRIP_CHARS (reply_of i (int_getter_command op)))),
   connected (written i (int_getter_command op))).
Proof. destruct op; reflexivity. Qed.


Lemma one_thousand_exact :
  float_of_string "1000.0" = Some one_thousand /\
  float_of_int 1000 = Ok one_thousand /\
  int_of_float one_thousand = Ok 1000 /\
  valid_binary prec emax one_thousand = true.
Proof. repeat split; vm_compute; reflexivity. Qed.

(** C6. When the instrument answers the scan-speed query [?NM/MIN] with
    the text 1000.0, a space, ok, carriage return, line feed, the getter
    returns the float 1000.0. *)
Theorem C6_scan_speed_reply (i : session)
    (H : reply_of i "?NM/MIN" = "1000.0 ok" ++ CRLF) :
  fst (scan_speed (connected i)) = Ok one_thousand.
Proof.
  change scan_speed with (run_float_getter GetScanSpeed).
  rewrite float_getter_run. cbn [fst float_getter_command].
  rewrite H. vm_compute. reflexivity.
Qed.

Lemma C6_scan_speed_reply_witness :
  reply_of (always ("1000.0 ok" ++ CRLF)) "?NM/MIN" = "1000.0 ok" ++ CRLF /\
  fst (scan_speed (connected (always ("1000.0 ok" ++ CRLF)))) = Ok one_thousand.
Proof.
  split; [reflexivity|].
  apply (C6_scan_speed_reply (always ("1000.0 ok" ++ CRLF))).
  reflexivity.
Defined.

Lemma terminator_stripped : all_in STRIP_CHARS (" ok" ++ CRLF) = true.
Proof. reflexivity. Qed.

(** C9. The two info getters do not hand back the reply as received: they
    return it without every leading and every trailing character among
    space, o, k, carriage return and line feed.  The removal is by
    character set: with the terminator go the characters of that set
    the payload itself starts or ends with, as for the payload kilo,
    of which il is left. *)
Theorem C9_info_getters_strip (op : info_getter) (i : session) :
  let resp := reply_of i (info_getter_command op) in
  let text := strip STRIP_CHARS resp in
  run_info_getter op (connected i)
    = (Ok text, connected (written i (info_getter_command op))) /\
  (exists pre post,
     resp = pre ++ text ++ post /\
     all_in STRIP_CHARS pre = true /\ all_in STRIP_CHARS post = true /\
     outside STRIP_CHARS (first_char text) = true /\
     outside STRIP_CHARS (last_char text) = true) /\
  (forall payload : string,
     strip STRIP_CHARS (payload ++ " ok" ++ CRLF) = strip STRIP_CHARS payload) /\
  fst (run_info_getter op (connected (always ("kilo ok" ++ CRLF)))) = Ok "il".
Proof.
  cbv zeta. repeat split.
  - destruct op; reflexivity.
  - apply strip_spec.
  - intros payload. apply strip_app, terminator_stripped.
  - destruct op; reflexivity.
Qed.

End AdapterFacts.

(** ** The command line *)

Section CLIFacts.
Import PyNum Adapter CLI.

Lemma in_list_In (s : string) (l : list string) : in_list s l = true <-> In s l.
Proof.
  induction l as [|x l IH]; simpl; [easy|].
  rewrite orb_true_iff, String.eqb_eq, IH. intuition congruence.
Qed.

(** A successful parse took its function from the command line, and took
    it from [choices]. *)
Lemma scan_function (argv : list arg) (c : collected) (args : namespace) :
  scan argv c = Parsed args ->
  match c_function c with
  | Some g => function args = g
  | None =>
      function_argument argv = Some (function args) /\
      in_list (function args) choices = true
  end.
Proof.
  revert c. induction argv as [|a argv IH]; intros c H.
  - cbn [scan] in H. destruct (c_function c); [|discriminate].
    destruct (extras c); [discriminate|]. injection H as <-. reflexivity.
  - destruct a as [s|[|] [v|]| |s]; cbn [scan] in H; try discriminate.
    + destruct (c_function c) as [g|] eqn:G.
      * apply IH in H. exact H.
      * destruct (in_list s choices) eqn:I; [|discriminate].
        apply IH in H. cbn [c_function] in H. subst s. auto.
    + apply IH in H. exact H.
    + apply IH in H. exact H.
    + apply IH in H. exact H.
Qed.

(** With a function outside [choices] the parser exits. *)
Lemma scan_unknown_function (argv : list arg) (c : collected) (f : string) :
  c_function c = None ->
  function_argument argv = Some f -> in_list f choices = false ->
  exists code, scan argv c = SystemExit code /\
               (code = 2 \/ code = 0 /\ In Help argv).
Proof.
  revert c. induction argv as [|a argv IH]; intros c Hc Hf Hn; [discriminate|].
  assert (step : forall c', c_function c' = None ->
            function_argument argv = Some f ->
            exists code, scan argv c' = SystemExit code /\
                         (code = 2 \/ code = 0 /\ In Help (a :: argv))).
  { intros c' Hc' Hf'. destruct (IH c' Hc' Hf' Hn) as [code [E D]].
    exists code. split; [exact E|].
    destruct D as [D|[D I]]; [left | right; split; [|right]]; assumption. }
  destruct a as [s|[|] [v|]| |s]; cbn [scan function_argument] in *.
  - injection Hf as ->. rewrite Hc, Hn. exists 2. auto.
  - apply step; assumption.
  - exists 2. auto.
  - apply step; assumption.
  - exists 2. auto.
  - exists 0. simpl. auto.
  - apply step; assumption.
Qed.

Lemma skipn_own_length {A : Type} (l : list A) : skipn (List.length l) l = [].
Proof. induction l; simpl; auto. Qed.

(** Whatever reaches the transport was named by one of [choices]. *)
Lemma transport_only_for_choices (w : world) (argv : list arg) :
  transport (main w argv) = [] \/
  exists f, function_argument argv = Some f /\ In f choices.
Proof.
  unfold main, parse_args.
  destruct (scan argv nothing) as [args|code] eqn:E; [right | now left].
  apply scan_function in E. cbn [c_function nothing] in E.
  exists (function args). now rewrite <- in_list_In.
Qed.

(** C5. A command line whose function argument is not one of the fourteen
    names is turned down by the parser: the program exits there (status
    2, or 0 when a help option comes first), opens no session, sends no
    command and prints no result. *)
Theorem C5_unknown_function_rejected (w : world) (argv : list arg) (f : string)
    (Hf : function_argument argv = Some f) (Hn : ~ In f choices) :
  exists code,
    parse_args argv = SystemExit code /\
    (code = 2 \/ code = 0 /\ In Help argv) /\
    main w argv = {| transport := []; printed := None; outcome := Exited code |}.
Proof.
  assert (Hn' : in_list f choices = false).
  { destruct (in_list f choices) eqn:I; [|reflexivity].
    exfalso. apply Hn. now apply in_list_In. }
  destruct (scan_unknown_function argv nothing f eq_refl Hf Hn') as [code [E D]].
  exists code. unfold main, parse_args. rewrite E. auto.
Qed.

Lemma C5_unknown_function_rejected_witness :
  function_argument [Opt NameOpt (Some "ASRL2::INSTR"); Word "get_speed"]
    = Some "get_speed" /\
  ~ In "get_speed" choices /\
  exists code,
    parse_args [Opt NameOpt (Some "ASRL2::INSTR"); Word "get_speed"]
      = SystemExit code /\
    (code = 2 \/
     code = 0 /\ In Help [Opt NameOpt (Some "ASRL2::INSTR"); Word "get_speed"]) /\
    main obliging [Opt NameOpt (Some "ASRL2::INSTR"); Word "get_speed"]
      = {| transport := []; printed := None; outcome := Exited code |}.
Proof.
  assert (N : ~ In "get_speed" choices).
  { intros H. apply in_list_In in H. vm_compute in H. discriminate. }
  split; [reflexivity|]. split; [exact N|].
  apply (C5_unknown_function_rejected obliging
           [Opt NameOpt (Some "ASRL2::INSTR"); Word "get_speed"] "get_speed").
  - reflexivity.
  - exact N.
Defined.

(** An option that is not on the command line is [None] after parsing. *)
Lemma scan_options (argv : list arg) (c : collected) (args : namespace) :
  scan argv c = Parsed args ->
  (if given NameOpt argv then True else resource_name args = c_resource_name c) /\
  (if given ParamOpt argv then True else parameter args = c_parameter c).
Proof.
  revert c. induction argv as [|a argv IH]; intros c H.
  - cbn [scan] in H. destruct (c_function c); [|discriminate].
    destruct (extras c); [discriminate|]. injection H as <-. split; reflexivity.
  - destruct a as [s|[|] [v|]| |s]; cbn [scan given] in *; try discriminate.
    + destruct (c_function c); [|destruct (in_list s choices); [|discriminate]];
        apply IH in H; exact H.
    + apply IH in H. cbn [c_parameter] in H. tauto.
    + apply IH in H. cbn [c_resource_name] in H. tauto.
    + apply IH in H. exact H.
Qed.





End CLIFacts.

(** ** Calls in sequence: what reaches the instrument *)

Section ProgramFacts.
Import PyStr PyNum Adapter Program.

Lemma home_filter_run (i : session) :
  home_filter (connected i) = (Ok tt, connected (written i "FHOME")).
Proof. reflexivity. Qed.

Lemma info_getter_run (op : info_getter) (i : session) :
  run_info_getter op (connected i) =
  (Ok (strip STRIP_CHARS (reply_of i (info_getter_command op))),
   connected (written i (info_getter_command op))).
Proof. destruct op; reflexivity. Qed.





(** X3. [home_filter] writes [FHOME] and returns, whatever the instrument
    answers: unlike the setters it does not look for the ok at the end of
    the reply.  With an instrument that never acknowledges, every setter
    raises or sends nothing, and [home_filter] still returns silently. *)
Theorem X3_home_filter_unchecked (i : session)
    (H : forall cmd, endswith (reply_of i cmd) OK_SUFFIX = false) :
  home_filter (connected i) = (Ok tt, connected (written i "FHOME")) /\
  (forall (op : setter) (v : pyval),
     is_ok (fst (run_setter op v (connected i))) = false).
Proof.
  split; [reflexivity|].
  intros op v. rewrite run_setter_eq.
  destruct (setter_command op v) as [cmd|e]; [|reflexivity].
  cbn [fst]. unfold validated. now rewrite H.
Qed.

Lemma X3_home_filter_unchecked_witness :
  (forall cmd, endswith (reply_of (always ("?" ++ CRLF)) cmd) OK_SUFFIX = false) /\
  home_filter (connected (always ("?" ++ CRLF)))
    = (Ok tt, connected (written (always ("?" ++ CRLF)) "FHOME")) /\
  (forall (op : setter) (v : pyval),
     is_ok (fst (run_setter op v (connected (always ("?" ++ CRLF))))) = false).
Proof.
  split; [intros cmd; reflexivity|].
  apply (X3_home_filter_unchecked (always ("?" ++ CRLF))).
  intros cmd. reflexivity.
Defined.

(** X4. A reply made only of characters of the terminator (space, o, k,
    carriage return, line feed), such as the bare acknowledgement, has
    nothing left after stripping: the info getters return the empty
    string, and the numeric getters raise the error of converting the
    empty string. *)
Theorem X4_empty_payload (i : session)
    (H : forall cmd, all_in STRIP_CHARS (reply_of i cmd) = true) :
  (forall op, fst (run_info_getter op (connected i)) = Ok "") /\
  (forall op, fst (run_float_getter op (connected i))
              = Raise (ConversionError (BadFloatLiteral ""))) /\
  (forall op, fst (run_int_getter op (connected i))
              = Raise (ConversionError (BadIntLiteral ""))).
Proof.
  assert (S : forall cmd, strip STRIP_CHARS (reply_of i cmd) = "").
  { intros cmd. unfold strip. now rewrite (lstrip_all_in _ _ (H cmd)). }
  repeat split; intros op.
  - rewrite info_getter_run. cbn [fst]. now rewrite S.
  - rewrite float_getter_run. cbn [fst]. now rewrite S.
  - rewrite int_getter_run. cbn [fst]. now rewrite S.
Qed.

Lemma X4_empty_payload_witness :
  (forall cmd, all_in STRIP_CHARS (reply_of (always (" ok" ++ CRLF)) cmd) = true) /\
  (forall op, fst (run_info_getter op (connected (always (" ok" ++ CRLF)))) = Ok "") /\
  (forall op, fst (run_float_getter op (connected (always (" ok" ++ CRLF))))
              = Raise (ConversionError (BadFloatLiteral ""))) /\
  (forall op, fst (run_int_getter op (connected (always (" ok" ++ CRLF))))
              = Raise (ConversionError (BadIntLiteral ""))).
Proof.
  split; [intros cmd; reflexivity|].
  apply (X4_empty_payload (always (" ok" ++ CRLF))).
  intros cmd. reflexivity.
Defined.

End ProgramFacts.

(** ** Numerals: what is written can be read *)

Section NumeralFacts.
Import PyStr PyNum Adapter Program.

Ltac by_cases_on c :=
  destruct c as [[|] [|] [|] [|] [|] [|] [|] [|]];
  try discriminate; try reflexivity.





Lemma int_digits_unfold (pu : bool) (acc : Z) (c : ascii) (s : string) :
  int_digits pu acc (String c s) =
  if Ascii.eqb c "_" then (if pu then None else int_digits true acc s)
  else if is_digit c then int_digits false (10 * acc + (code c - 48)) s
  else None.
Proof. by_cases_on c. Qed.


















Lemma int_of_string_unfold (s : string) :
  int_of_string s =
  let '(neg, body) := parse_sign (strip_space s) in
  match body with
  | EmptyString => None
  | String c _ =>
      if Ascii.eqb c "_" then None
      else option_map (cond_neg neg) (int_digits false 0 body)
  end.
Proof.
  unfold int_of_string. destruct (parse_sign (strip_space s)) as [neg body].
  destruct body as [|c r]; [reflexivity|]. by_cases_on c.
Qed.


















Lemma div_nearest_even_close (n d : Z) :
  0 <= n -> 0 < d -> 2 * Z.abs (div_nearest_even n d * d - n) <= d.
Proof.
  intros Hn Hd. unfold div_nearest_even.
  pose proof (Z.div_mod n d ltac:(lia)) as E.
  pose proof (Z.mod_pos_bound n d Hd) as B.
  generalize dependent (n mod d). generalize dependent (n / d).
  intros q r E B.
  assert (E0 : q * d - n = - r) by (rewrite E; ring).
  assert (E1 : (q + 1) * d - n = d - r) by (rewrite E; ring).
  destruct (2 * r ?= d) eqn:C.
  - apply Z.compare_eq in C. destruct (Z.even q); rewrite ?E0, ?E1; lia.
  - change (2 * r < d) in C. rewrite E0. lia.
  - change (2 * r > d) in C. rewrite E1. lia.
Qed.

(** X7. The number a float setter writes for a finite argument is the
    argument rounded to tenths: written in tenths it is a natural number
    [t] whose distance from ten times the magnitude of the argument is at
    most one half, so the instrument is sent a value within 0.05 of the
    one asked for, with the sign of the argument. *)
Theorem X7_float_setter_rounds_to_tenths (op : float_setter) (i : session)
    (s : bool) (m : positive) (e : Z) :
  let t := tenths m e in
  sent_by (snd (run_float_setter op (PFloat (S754_finite s m e)) (connected i)))
    = app (sent i)
          [(sign_str s ++ format_int (t / 10) ++ "." ++ format_int (t mod 10))
           ++ float_setter_word op] /\
  0 <= t /\
  2 * Z.abs (t * 2 ^ Z.max 0 (- e) - 10 * Zpos m * 2 ^ Z.max 0 e)
    <= 2 ^ Z.max 0 (- e).
Proof.
  cbv zeta. split.
  { change (run_float_setter op) with (run_setter (FloatSetter op)).
    rewrite run_setter_eq. reflexivity. }
  split; [apply tenths_nonneg|].
  unfold tenths. destruct (0 <=? e) eqn:E.
  - apply Z.leb_le in E.
    rewrite (Z.max_l 0 (- e)), (Z.max_r 0 e) by lia.
    change (2 ^ 0) with 1. rewrite Z.mul_1_r, Z.sub_diag. cbn. lia.
  - apply Z.leb_gt in E.
    rewrite (Z.max_r 0 (- e)), (Z.max_l 0 e) by lia.
    change (2 ^ 0) with 1. rewrite Z.mul_1_r.
    apply div_nearest_even_close; [lia|]. apply Z.pow_pos_nonneg; lia.
Qed.

Lemma int_digits_chars (pu : bool) (acc : Z) (s : string) (z : Z) (c : ascii) :
  int_digits pu acc s = Some z -> mem c s = true ->
  is_digit c || Ascii.eqb c "_" = true.
Proof.
  revert pu acc. induction s as [|d s IH]; intros pu acc H M; [discriminate|].
  rewrite int_digits_unfold in H. cbn [mem] in M.
  apply orb_true_iff in M. destruct M as [M|M].
  - apply Ascii.eqb_eq in M. subst d.
    destruct (Ascii.eqb c "_"); [apply orb_true_r|].
    destruct (is_digit c); [reflexivity | discriminate].
  - destruct (Ascii.eqb d "_").
    + destruct pu; [discriminate|]. now apply (IH _ _ H).
    + destruct (is_digit d); [|discriminate]. now apply (IH _ _ H).
Qed.

Lemma parse_sign_cases (s : string) :
  s = snd (parse_sign s) \/
  s = String "-" (snd (parse_sign s)) \/ s = String "+" (snd (parse_sign s)).
Proof.
  destruct s as [|c s]; [now left|].
  destruct c as [[|] [|] [|] [|] [|] [|] [|] [|]]; cbn; auto.
Qed.

Lemma lstrip_space_mem (c : ascii) (s : string) :
  mem c s = true -> is_space c = false -> mem c (lstrip_space s) = true.
Proof.
  intros M S. induction s as [|d s IH]; [discriminate|].
  cbn [lstrip_space]. destruct (is_space d) eqn:D; [|exact M].
  cbn [mem] in M. apply orb_true_iff in M. destruct M as [M|M]; [|auto].
  apply Ascii.eqb_eq in M. congruence.
Qed.

Lemma rstrip_space_mem (c : ascii) (s : string) :
  mem c s = true -> is_space c = false -> mem c (rstrip_space s) = true.
Proof.
  intros M S. induction s as [|d s IH]; [discriminate|].
  cbn [rstrip_space]. cbn [mem] in M. apply orb_true_iff in M.
  destruct M as [M|M].
  - apply Ascii.eqb_eq in M. subst d.
    destruct (rstrip_space s); [rewrite S|]; cbn [mem];
      now rewrite Ascii.eqb_refl.
  - specialize (IH M). destruct (rstrip_space s); [discriminate|].
    cbn [mem] in *. rewrite IH. apply orb_true_r.
Qed.

(** Every character of a text that [int] accepts is a space, a sign, an
    underscore or a digit. *)
Lemma int_of_string_chars (s : string) (z : Z) (c : ascii) :
  int_of_string s = Some z -> mem c s = true ->
  is_space c || is_digit c || mem c "+-_" = true.
Proof.
  intros H M. destruct (is_space c) eqn:S; [reflexivity|].
  assert (M' : mem c (strip_space s) = true)
    by (unfold strip_space; apply rstrip_space_mem;
        [apply lstrip_space_mem|]; assumption).
  rewrite int_of_string_unfold in H.
  pose proof (parse_sign_cases (strip_space s)) as P.
  destruct (parse_sign (strip_space s)) as [neg body]. cbn [snd] in P.
  assert (B : mem c body = true -> is_digit c || mem c "+-_" = true).
  { intros Mb. destruct body as [|d r]; [discriminate|].
    destruct (Ascii.eqb d "_"); [discriminate|].
    destruct (int_digits false 0 (String d r)) as [v|] eqn:I; [|discriminate].
    pose proof (int_digits_chars _ _ _ _ c I Mb) as X.
    apply orb_true_iff in X. destruct X as [X|X].
    - now rewrite X.
    - apply Ascii.eqb_eq in X. subst c. apply orb_true_r. }
  cbn [orb]. destruct P as [P|[P|P]]; rewrite P in M'.
  - auto.
  - cbn [mem] in M'. apply orb_true_iff in M'. destruct M' as [M'|M']; [|auto].
    apply Ascii.eqb_eq in M'. subst c. reflexivity.
  - cbn [mem] in M'. apply orb_true_iff in M'. destruct M' as [M'|M']; [|auto].
    apply Ascii.eqb_eq in M'. subst c. reflexivity.
Qed.

(** X8. An integer setter (grating, turret, filter) given a text with a
    character that is no digit, sign, underscore or space, such as the
    point of 2.0, raises the error of [int] and writes nothing to the
    instrument. *)
Theorem X8_int_setter_rejects_text (op : int_setter) (i : session)
    (s : string) (c : ascii)
    (Hc : mem c s = true)
    (Hn : is_space c || is_digit c || mem c "+-_" = false) :
  run_int_setter op (PStr s) (connected i)
    = (Raise (ConversionError (BadIntLiteral s)), connected i).
Proof.
  assert (N : int_of_string s = None).
  { destruct (int_of_string s) as [z|] eqn:E; [|reflexivity].
    pose proof (int_of_string_chars s z c E Hc). congruence. }
  change (run_int_setter op) with (run_setter (IntSetter op)).
  rewrite run_setter_eq. cbn [setter_command py_int]. now rewrite N.
Qed.

Lemma X8_int_setter_rejects_text_witness :
  mem "." "2.0" = true /\
  is_space "." || is_digit "." || mem "." "+-_" = false /\
  run_int_setter SetGrating (PStr "2.0") (connected (always ("ok" ++ CRLF)))
    = (Raise (ConversionError (BadIntLiteral "2.0")),
       connected (always ("ok" ++ CRLF))).
Proof.
  split; [reflexivity|]. split; [reflexivity|].
  apply (X8_int_setter_rejects_text SetGrating (always ("ok" ++ CRLF)) "2.0" ".");
    reflexivity.
Defined.

(** X14. An integer setter given a finite float writes the command it
    writes for the float cut off toward zero: the integer [q] with
    [q <= |x| < q + 1], under the sign of [x]. *)
Theorem X14_int_setter_truncates (op : int_setter) (i : session)
    (s : bool) (m : positive) (e : Z) :
  let q := Z.shiftl (Zpos m) e in
  run_int_setter op (PFloat (S754_finite s m e)) (connected i)
    = run_int_setter op (PInt (cond_neg s q)) (connected i) /\
  0 <= q /\
  q * 2 ^ Z.max 0 (- e) <= Zpos m * 2 ^ Z.max 0 e < (q + 1) * 2 ^ Z.max 0 (- e).
Proof.
  cbv zeta. split.
  { change (run_int_setter op) with (run_setter (IntSetter op)).
    rewrite !run_setter_eq. reflexivity. }
  destruct (Z.le_gt_cases 0 e) as [E|E].
  - rewrite Z.shiftl_mul_pow2 by exact E.
    rewrite (Z.max_l 0 (- e)), (Z.max_r 0 e) by lia.
    assert (0 < 2 ^ e) by (apply Z.pow_pos_nonneg; lia).
    change (2 ^ 0) with 1. nia.
  - assert (S : Z.shiftl (Zpos m) e = Zpos m / 2 ^ (- e)).
    { rewrite <- (Z.opp_involutive e) at 1.
      rewrite Z.shiftl_opp_r, Z.shiftr_div_pow2 by lia. reflexivity. }
    rewrite S. clear S.
    rewrite (Z.max_r 0 (- e)), (Z.max_l 0 e) by lia.
    change (2 ^ 0) with 1. rewrite Z.mul_1_r.
    assert (P : 0 < 2 ^ (- e)) by (apply Z.pow_pos_nonneg; lia).
    pose proof (Z.div_mod (Zpos m) (2 ^ (- e)) ltac:(lia)) as D.
    pose proof (Z.mod_pos_bound (Zpos m) (2 ^ (- e)) P) as B.
    assert (Q : 0 <= Zpos m / 2 ^ (- e)) by (apply Z.div_pos; lia).
    generalize dependent (Zpos m mod 2 ^ (- e)).
    generalize dependent (Zpos m / 2 ^ (- e)).
    generalize dependent (2 ^ (- e)).
    intros d P q Q r D B. rewrite D.
    replace ((q + 1) * d) with (d * q + d) by ring.
    replace (q * d) with (d * q) by ring. lia.
Qed.

End NumeralFacts.

(** ** A run of the program: the session is opened and closed *)

Section RunFacts.
Import PyNum Adapter CLI Program.

Lemma mbind_state {A B : Type} (m : M A) (f : A -> B) (self : sp2150) :
  snd ((x <- m ;; ret (f x)) self) = snd (m self).
Proof. unfold mbind, ret. destruct (m self) as [[a|e] self']; reflexivity. Qed.

Lemma setter_state (op : setter) (v : pyval) (s : session) :
  snd (run_setter op v (connected s)) = connected s \/
  exists cmd, snd (run_setter op v (connected s)) = connected (written s cmd).
Proof.
  rewrite run_setter_eq.
  destruct (setter_command op v) as [cmd|e]; cbn [snd]; eauto.
Qed.

(** The adapter call of the dispatcher writes at most one command and
    leaves the adapter connected. *)
Lemma dispatch_state (args : namespace) (s : session) :
  snd (dispatch args (connected s)) = connected s \/
  exists cmd, snd (dispatch args (connected s)) = connected (written s cmd).
Proof.
  unfold dispatch. cbv zeta.
  destruct (String.eqb (function args) "set_scan_speed");
    [rewrite mbind_state; apply (setter_state (FloatSetter SetScanSpeed))|].
  destruct (String.eqb (function args) "get_scan_speed");
    [rewrite mbind_state; right; eexists; reflexivity|].
  destruct (String.eqb (function args) "scan_to_wavelength");
    [rewrite mbind_state; apply (setter_state (FloatSetter ScanToWavelength))|].
  destruct (String.eqb (function args) "goto_wavelength");
    [rewrite mbind_state; apply (setter_state (FloatSetter SetWavelength))|].
  destruct (String.eqb (function args) "get_wavelength");
    [rewrite mbind_state; right; eexists; reflexivity|].
  destruct (String.eqb (function args) "set_grating");
    [rewrite mbind_state; apply (setter_state (IntSetter SetGrating))|].
  destruct (String.eqb (function args) "get_grating");
    [rewrite mbind_state; right; eexists; reflexivity|].
  destruct (String.eqb (function args) "set_turret");
    [rewrite mbind_state; apply (setter_state (IntSetter SetTurret))|].
  destruct (String.eqb (function args) "get_turret");
    [rewrite mbind_state; right; eexists; reflexivity|].
  destruct (String.eqb (function args) "get_grating_info");
    [rewrite mbind_state; right; eexists; reflexivity|].
  destruct (String.eqb (function args) "get_turret_info");
    [rewrite mbind_state; right; eexists; reflexivity|].
  destruct (String.eqb (function args) "set_filter");
    [rewrite mbind_state; apply (setter_state (IntSetter SetFilter))|].
  destruct (String.eqb (function args) "get_filter");
    [rewrite mbind_state; right; eexists; reflexivity|].
  destruct (String.eqb (function args) "home_filter");
    [rewrite mbind_state; right; eexists; reflexivity|].
  now left.
Qed.

Lemma skipn_app_own_length {A : Type} (l r : list A) :
  skipn (List.length l) (app l r) = r.
Proof. induction l; simpl; auto. Qed.

(** X9. When the session opens, the program closes it again on every path,
    also when the adapter call raises: what reaches the transport is the
    opening, at most one command, and the closing, in that order.  The
    program ends normally when the call returns, printing what a getter
    returned, and with the call's own exception when it raises. *)
Theorem X9_session_always_closed (w : world) (argv : list arg)
    (args : namespace) (s : session)
    (Hp : parse_args argv = Parsed args)
    (Ho : open_resource w (resource_name args) = Ok s) :
  exists cmds,
    (List.length cmds <= 1)%nat /\
    transport (main w argv)
      = Opening (resource_name args) :: app (map Sending cmds) [Closing] /\
    outcome (main w argv)
      = match fst (dispatch args (connected s)) with
        | Ok _ => Finished
        | Raise e => Uncaught e
        end /\
    printed (main w argv)
      = match fst (dispatch args (connected s)) with
        | Ok v => v
        | Raise _ => None
        end.
Proof.
  unfold main. rewrite Hp. unfold connect, __enter__. rewrite Ho.
  pose proof (dispatch_state args s) as D. unfold connected in *.
  destruct (dispatch args {| instr := Some s |}) as [r mono2].
  cbn [snd fst] in *.
  destruct D as [->|[cmd ->]].
  - exists []. cbn. rewrite skipn_own_length.
    destruct r; repeat split; auto.
  - exists [cmd]. cbn. rewrite skipn_app_own_length.
    destruct r; repeat split; auto.
Qed.

Lemma X9_session_always_closed_witness :
  parse_args [Word "set_grating"; Opt ParamOpt (Some "2")]
    = Parsed {| resource_name := None; function := "set_grating";
                parameter := Some "2" |} /\
  open_resource obliging None = Ok (always ("ok" ++ CRLF)) /\
  exists cmds,
    (List.length cmds <= 1)%nat /\
    transport (main obliging [Word "set_grating"; Opt ParamOpt (Some "2")])
      = Opening None :: app (map Sending cmds) [Closing] /\
    outcome (main obliging [Word "set_grating"; Opt ParamOpt (Some "2")])
      = match fst (dispatch {| resource_name := None; function := "set_grating";
                               parameter := Some "2" |}
                            (connected (always ("ok" ++ CRLF)))) with
        | Ok _ => Finished
        | Raise e => Uncaught e
        end /\
    printed (main obliging [Word "set_grating"; Opt ParamOpt (Some "2")])
      = match fst (dispatch {| resource_name := None; function := "set_grating";
                               parameter := Some "2" |}
                            (connected (always ("ok" ++ CRLF)))) with
        | Ok v => v
        | Raise _ => None
        end.
Proof.
  split; [reflexivity|]. split; [reflexivity|].
  exact (X9_session_always_closed obliging
           [Word "set_grating"; Opt ParamOpt (Some "2")]
           {| resource_name := None; function := "set_grating";
              parameter := Some "2" |}
           (always ("ok" ++ CRLF)) eq_refl eq_refl).
Defined.

(** X10. When the session cannot be opened, the exception that ends the
    program is not the transport's: leaving the [with] block calls
    [disconnect], which finds no [instr] and raises AttributeError in its
    place.  Nothing is sent, nothing is closed, nothing is printed; and
    so for any block that starts by connecting. *)
Theorem X10_failed_open_masked (w : world) (argv : list arg)
    (args : namespace) (e : exn)
    (Hp : parse_args argv = Parsed args)
    (Ho : open_resource w (resource_name args) = Raise e) :
  main w argv
    = {| transport := [Opening (resource_name args)];
         printed := None;
         outcome := Uncaught (AttributeError "instr") |} /\
  (forall (A : Type) (rest : M A),
     with_sp2150 (_ <- connect w (resource_name args) ;; rest)
       = (Raise (AttributeError "instr"), new)).
Proof.
  split.
  - unfold main. rewrite Hp. unfold connect, __enter__. now rewrite Ho.
  - intros A rest. unfold with_sp2150, mbind, connect, __enter__.
    now rewrite Ho.
Qed.

Lemma X10_failed_open_masked_witness :
  parse_args [Word "get_filter"]
    = Parsed {| resource_name := None; function := "get_filter";
                parameter := None |} /\
  open_resource unreachable None = Raise (TransportError "no such resource") /\
  main unreachable [Word "get_filter"]
    = {| transport := [Opening None];
         printed := None;
         outcome := Uncaught (AttributeError "instr") |} /\
  (forall (A : Type) (rest : M A),
     with_sp2150 (_ <- connect unreachable None ;; rest)
       = (Raise (AttributeError "instr"), new)).
Proof.
  split; [reflexivity|]. split; [reflexivity|].
  exact (X10_failed_open_masked unreachable [Word "get_filter"]
           {| resource_name := None; function := "get_filter";
              parameter := None |}
           (TransportError "no such resource") eq_refl eq_refl).
Defined.

(** X15. What a successful parse guarantees: the function is the first
    word of the command line and one of the fourteen names, and an option
    that does not occur on the command line is [None]. *)
Theorem X15_parse_result (argv : list arg) (args : namespace)
    (Hp : parse_args argv = Parsed args) :
  function_argument argv = Some (function args) /\
  In (function args) choices /\
  (if given NameOpt argv then True else resource_name args = None) /\
  (if given ParamOpt argv then True else parameter args = None).
Proof.
  pose proof (scan_function argv nothing args Hp) as F.
  pose proof (scan_options argv nothing args Hp) as O.
  cbn [c_function c_resource_name c_parameter nothing] in *.
  destruct F as [F1 F2]. apply in_list_In in F2. tauto.
Qed.

Lemma X15_parse_result_witness :
  parse_args [Opt NameOpt (Some "ASRL2::INSTR"); Word "get_turret"]
    = Parsed {| resource_name := Some "ASRL2::INSTR"; function := "get_turret";
                parameter := None |} /\
  function_argument [Opt NameOpt (Some "ASRL2::INSTR"); Word "get_turret"]
    = Some "get_turret" /\
  In "get_turret" choices /\
  True /\
  @None string = None.
Proof.
  split; [reflexivity|].
  exact (X15_parse_result [Opt NameOpt (Some "ASRL2::INSTR"); Word "get_turret"]
           {| resource_name := Some "ASRL2::INSTR"; function := "get_turret";
              parameter := None |} eq_refl).
Defined.

(** X11. For the functions that are no setter and no scan (the getters and
    [home_filter]) the adapter call does not look at [-p], nor at the
    resource name: the same call is made whatever they are. *)
Theorem X11_getters_ignore_parameter (args : namespace)
    (name p : option string) (self : sp2150)
    (H : takes_parameter (function args) = false) :
  dispatch {| resource_name := name; function := function args; parameter := p |}
           self
  = dispatch args self.
Proof.
  unfold dispatch. cbv zeta. cbn [function].
  repeat match goal with
  | |- context [if String.eqb (function args) ?n then _ else _] =>
      destruct (String.eqb (function args) n) eqn:?
  end;
  try reflexivity;
  match goal with
  | E : String.eqb (function args) _ = true |- _ =>
      apply String.eqb_eq in E; rewrite E in H; discriminate
  end.
Qed.

Lemma X11_getters_ignore_parameter_witness :
  takes_parameter "get_grating" = false /\
  dispatch {| resource_name := None; function := "get_grating";
              parameter := Some "7" |}
           (connected (always ("2 ok" ++ CRLF)))
  = dispatch {| resource_name := None; function := "get_grating";
                parameter := None |}
             (connected (always ("2 ok" ++ CRLF))).
Proof.
  split; [reflexivity|].
  exact (X11_getters_ignore_parameter
           {| resource_name := None; function := "get_grating"; parameter := None |}
           None (Some "7") (connected (always ("2 ok" ++ CRLF))) eq_refl).
Defined.

End RunFacts.

(** ** The stand-in: calls in sequence, and its program *)

Section VirtualRunFacts.
Import CLI VirtualProgram.

Lemma virtual_apply_get (op : Virtual.mutation) (self : Virtual.sp2150)
    (f : Virtual.field) :
  Virtual.get f (Virtual.apply op self)
  = if field_eqb f (Virtual.own_field op) then value_written op
    else Virtual.get f self.
Proof. destruct op, f; reflexivity. Qed.

(** X12. After any sequence of writing operations on the stand-in, each
    attribute holds what the last operation that owns it wrote, and what
    it held at the start when no operation of the sequence owns it; the
    operations on other attributes in between leave no trace on it. *)
Theorem X12_virtual_last_write_wins (ops : list Virtual.mutation)
    (self : Virtual.sp2150) (f : Virtual.field) :
  Virtual.get f (apply_all ops self)
  = match last_write f ops with
    | Some v => v
    | None => Virtual.get f self
    end.
Proof.
  revert self. induction ops as [|op ops IH]; intros self; [reflexivity|].
  unfold apply_all in *. cbn [fold_left last_write].
  rewrite IH. destruct (last_write f ops); [reflexivity|].
  rewrite virtual_apply_get.
  destruct (field_eqb f (Virtual.own_field op)); reflexivity.
Qed.



End VirtualRunFacts.
